(** * microstellar: the client facade over the transaction pipeline

    A shallow embedding of [microstellar.go].  The facade methods are
    translated one by one into a state monad whose state holds the
    [MicroStellar] handle the receiver points to, the world the pipeline
    and its collaborators act on, and a ghost log of every call the
    facade makes on them.  Everything the facade calls but does not
    define (the [Tx] pipeline, the horizon client, the key-pair
    generator, the payment builder) is a field of the class [Backend],
    so that the theorems hold for every implementation of them.

    Conventions of the embedding:
    - a Go [error] is [option error], [None] being [nil];
    - a returned pointer [*T] is [option T], [None] being [nil];
    - pointer parameters ([*Payment], [*Asset]) are passed as the value
      they point to;
    - a variadic [signers ...string] is a [list string];
    - [uint32] and [uint64] values are carried as [N], no arithmetic is
      done on them. *)

From Stdlib Require Import String List NArith Bool Arith Lia.
From stdpp Require Import base option list strings.

Open Scope string_scope.

(** ** The handle *)

Record MicroStellar := mkMicroStellar {
  networkName : string;
  fake : bool
}.

(** [New] returns a client connected to [networkName]. *)
Definition New (networkName : string) : MicroStellar :=
  {| networkName := networkName;
     fake := bool_decide (networkName = "fake") |}.

(** ** Data model read by the facade *)

(** The fields of [Asset] the facade reads: [asset.Code], [asset.Issuer]. *)
Record Asset := mkAsset {
  Code : string;
  Issuer : string
}.

(** Modelled from the spec: the declaration of the memo type is not among
    the sources, only its constants [MemoText] and [MemoID] are used.  The
    data model gives the memo type as one of None, Text, ID. *)
Inductive MemoType := MemoNone | MemoText | MemoID.

(** The fields of [Payment] that [Pay] reads. *)
Record Payment := mkPayment {
  sourceSeed : string;
  targetAddress : string;
  amount : string;
  asset : Asset;
  memoType : MemoType;
  memoText : string;
  memoID : N;
  signerSeeds : list string
}.

(** [KeyPair], built positionally from a seed and an address. *)
Record KeyPair := mkKeyPair {
  Seed : string;
  Address : string
}.

(** Modelled from the spec: the declaration of [Account] is not among the
    sources.  An account snapshot holds an address, a sequence number,
    balances per asset, signers with their weights, and thresholds. *)
Record Account := mkAccount {
  AccountAddress : string;
  Sequence : N;
  Balances : list (Asset * string);
  Signers : list (string * N);
  Thresholds : N * N * N
}.

(** Modelled from the spec: [newAccount] is not among the sources.  In
    fake mode an account is synthesized with zero-value defaults. *)
Definition newAccount : Account :=
  {| AccountAddress := "";
     Sequence := 0%N;
     Balances := [];
     Signers := [];
     Thresholds := (0%N, 0%N, 0%N) |}.

(** ** Descriptors of the operation-builder library

    The facade treats what [build.*] returns as opaque values and only
    decides which ones are built, from which arguments and in which
    order.  Each descriptor is therefore the builder call itself: equal
    descriptors are equal calls, while two different calls may still
    build the same operation (see [trustArguments]). *)

(** Arguments handed to an operation builder as [interface{}] values. *)
Inductive OpMutator :=
| Destination (AddressOrSeed : string)
| NativeAmount (Amount : string)
| CreditAmount (Code Issuer Amount : string)
| Limit (limit : string).

(** Values of type [build.TransactionMutator]. *)
Inductive TransactionMutator :=
| BuildMemoText (Value : string)
| BuildMemoID (Value : N)
| BuildPayment (muts : list OpMutator)
| BuildCreateAccount (muts : list OpMutator)
| BuildTrust (code issuer : string) (args : list OpMutator)
| BuildRemoveTrust (code issuer : string)
| BuildMasterWeight (weight : N)
| BuildAddSigner (address : string) (weight : N)
| BuildRemoveSigner (address : string)
| BuildSetThresholds (low medium high : N).

(** The first argument of [Tx.Build]. *)
Inductive SourceAccount :=
| BuildSourceAccount (AddressOrSeed : string).

(** Modelled from the spec: [sourceAccount] is not among the sources.  It
    turns the primary value, a seed or an address, into the identifier of
    the envelope's source account. *)
Definition sourceAccount (addressOrSeed : string) : SourceAccount :=
  BuildSourceAccount addressOrSeed.

Definition isMemo (m : TransactionMutator) : bool :=
  match m with
  | BuildMemoText _ | BuildMemoID _ => true
  | _ => false
  end.

Definition isPayment (m : TransactionMutator) : bool :=
  match m with
  | BuildPayment _ => true
  | _ => false
  end.





(** ** What the facade calls and does not define

    [Build], [Sign] and [Submit] are called as statements: whatever they
    return is dropped, so they are state transformers here.
    [KeypairRandom] stands for [keypair.Random] with the pair's [Seed()]
    and [Address()] read off.  [NewPayment] and [newAccountFromHorizon],
    like [newAccount], are constructors: they allocate what they return,
    so the pointer they hand back is not nil. *)

Class Backend := {
  World : Type;
  TxRef : Type;
  error : Type;
  Client : Type;
  HorizonAccount : Type;
  (* tx.go *)
  NewTx : string → World → TxRef * World;
  Build : TxRef → SourceAccount → list TransactionMutator → World → World;
  Sign : TxRef → list string → World → World;
  Submit : TxRef → World → World;
  Err : TxRef → World → option error * World;
  GetClient : TxRef → World → Client * World;
  (* horizon client *)
  ClientLoadAccount : Client → string → World → (HorizonAccount * option error) * World;
  (* keypair *)
  KeypairRandom : World → (KeyPair * option error) * World;
  (* payment.go, asset.go, account.go *)
  NewPayment : string → string → string → Payment;
  IsNative : Asset → bool;
  newAccountFromHorizon : HorizonAccount → Account
}.

Section Facade.
Context `{B : Backend}.

(** ** Ghost log of the calls made on the pipeline and its collaborators *)

Inductive TxCall :=
| CallNewTx (networkName : string) (tx : TxRef)
| CallBuild (tx : TxRef) (src : SourceAccount) (muts : list TransactionMutator)
| CallSign (tx : TxRef) (keys : list string)
| CallSubmit (tx : TxRef)
| CallErr (tx : TxRef) (e : option error)
| CallGetClient (tx : TxRef) (c : Client)
| CallLoadAccount (c : Client) (address : string) (r : HorizonAccount * option error)
| CallRandom (r : KeyPair * option error).

(** ** State and monad of the facade *)

Record FState := mkFState {
  handle : MicroStellar;
  world : World;
  calls : list TxCall
}.

Definition F (A : Type) : Type := FState → A * FState.

Definition ret {A} (a : A) : F A := λ s, (a, s).

Definition bind {A C} (m : F A) (k : A → F C) : F C :=
  λ s, let (a, s') := m s in k a s'.

Notation "x <- m ;; k" := (bind m (λ x, k))
  (at level 100, m at next level, k at level 200, right associativity,
   only parsing).
Notation "m ;;; k" := (bind m (λ _, k))
  (at level 100, k at level 200, right associativity, only parsing).

Definition logged (s : FState) (w : World) (c : TxCall) : FState :=
  {| handle := handle s; world := w; calls := (calls s ++ [c])%list |}.

(** Reads of the receiver's fields. *)
Definition ms_networkName : F string := λ s, (networkName (handle s), s).
Definition ms_fake : F bool := λ s, (fake (handle s), s).

(** Calls on the backend, each one logged. *)
Definition newTx (name : string) : F TxRef :=
  λ s, let (tx, w) := NewTx name (world s) in (tx, logged s w (CallNewTx name tx)).

Definition tx_Build (tx : TxRef) (src : SourceAccount)
    (muts : list TransactionMutator) : F unit :=
  λ s, (tt, logged s (Build tx src muts (world s)) (CallBuild tx src muts)).

Definition tx_Sign (tx : TxRef) (keys : list string) : F unit :=
  λ s, (tt, logged s (Sign tx keys (world s)) (CallSign tx keys)).

Definition tx_Submit (tx : TxRef) : F unit :=
  λ s, (tt, logged s (Submit tx (world s)) (CallSubmit tx)).

Definition tx_Err (tx : TxRef) : F (option error) :=
  λ s, let (e, w) := Err tx (world s) in (e, logged s w (CallErr tx e)).

Definition tx_GetClient (tx : TxRef) : F Client :=
  λ s, let (c, w) := GetClient tx (world s) in (c, logged s w (CallGetClient tx c)).

Definition client_LoadAccount (c : Client) (address : string)
    : F (HorizonAccount * option error) :=
  λ s, let (r, w) := ClientLoadAccount c address (world s) in
       (r, logged s w (CallLoadAccount c address r)).

Definition keypair_Random : F (KeyPair * option error) :=
  λ s, let (r, w) := KeypairRandom (world s) in (r, logged s w (CallRandom r)).

(** ** The facade *)

(** [CreateKeyPair] generates a new random key pair. *)
Definition CreateKeyPair : F (option KeyPair * option error) :=
  r <- keypair_Random ;;
  let '(kp, err) := r in
  match err with
  | Some e => ret (None, Some e)
  | None => ret (Some (mkKeyPair (Seed kp) (Address kp)), None)
  end.

(** [FundAccount] creates a new account out of [address] by funding it
    with lumens from [sourceSeed]. *)
Definition FundAccount (sourceSeed address amount : string)
    (signers : list string) : F (option error) :=
  let payment :=
    BuildCreateAccount [Destination address; NativeAmount amount] in
  name <- ms_networkName ;;
  tx <- newTx name ;;
  tx_Build tx (sourceAccount sourceSeed) [payment] ;;;
  (if (0 <? length signers)%nat
   then tx_Sign tx signers
   else tx_Sign tx [sourceSeed]) ;;;
  tx_Submit tx ;;;
  tx_Err tx.

(** [LoadAccount] loads the account information for the given address. *)
Definition LoadAccount (address : string) : F (option Account * option error) :=
  isFake <- ms_fake ;;
  if isFake then ret (Some newAccount, None)
  else
    name <- ms_networkName ;;
    tx <- newTx name ;;
    client <- tx_GetClient tx ;;
    r <- client_LoadAccount client address ;;
    let '(account, err) := r in
    match err with
    | Some e => ret (None, Some e)
    | None => ret (Some (newAccountFromHorizon account), None)
    end.

(** [Pay] creates payment transactions: credit assets, memos, signers. *)
Definition Pay (payment : Payment) : F (option error) :=
  let txMuts : list TransactionMutator := [] in
  let paymentMuts : list OpMutator :=
    [Destination (targetAddress payment)] in
  let paymentMuts :=
    if IsNative (asset payment)
    then (paymentMuts ++ [NativeAmount (amount payment)])%list
    else (paymentMuts ++
          [CreditAmount (Code (asset payment)) (Issuer (asset payment))
                        (amount payment)])%list in
  let txMuts :=
    match memoType payment with
    | MemoText => (txMuts ++ [BuildMemoText (memoText payment)])%list
    | MemoID => (txMuts ++ [BuildMemoID (memoID payment)])%list
    | _ => txMuts
    end in
  let txMuts := (txMuts ++ [BuildPayment paymentMuts])%list in
  name <- ms_networkName ;;
  tx <- newTx name ;;
  tx_Build tx (sourceAccount (sourceSeed payment)) txMuts ;;;
  (if (0 <? length (signerSeeds payment))%nat
   then tx_Sign tx (signerSeeds payment)
   else tx_Sign tx [sourceSeed payment]) ;;;
  tx_Submit tx ;;;
  tx_Err tx.

(** [PayNative] makes a native asset payment of [amount] from source to
    target. *)
Definition PayNative (sourceSeed targetAddress amount : string)
    : F (option error) :=
  Pay (NewPayment sourceSeed targetAddress amount).

(** [CreateTrustLine] creates a trustline from [sourceSeed] to [asset]
    with the given limit; an empty limit string indicates no limit. *)
Definition CreateTrustLine (sourceSeed : string) (asset : Asset)
    (limit : string) (signers : list string) : F (option error) :=
  name <- ms_networkName ;;
  tx <- newTx name ;;
  (if bool_decide (limit = "")
   then tx_Build tx (sourceAccount sourceSeed)
          [BuildTrust (Code asset) (Issuer asset) []]
   else tx_Build tx (sourceAccount sourceSeed)
          [BuildTrust (Code asset) (Issuer asset) [Limit limit]]) ;;;
  (if (0 <? length signers)%nat
   then tx_Sign tx signers
   else tx_Sign tx [sourceSeed]) ;;;
  tx_Submit tx ;;;
  tx_Err tx.

(** [RemoveTrustLine] removes a trustline from [sourceSeed] to an asset. *)
Definition RemoveTrustLine (sourceSeed : string) (asset : Asset)
    (signers : list string) : F (option error) :=
  name <- ms_networkName ;;
  tx <- newTx name ;;
  tx_Build tx (sourceAccount sourceSeed)
    [BuildRemoveTrust (Code asset) (Issuer asset)] ;;;
  (if (0 <? length signers)%nat
   then tx_Sign tx signers
   else tx_Sign tx [sourceSeed]) ;;;
  tx_Submit tx ;;;
  tx_Err tx.

(** [SetMasterWeight] changes the master weight of [sourceSeed]. *)
Definition SetMasterWeight (sourceSeed : string) (weight : N)
    (signers : list string) : F (option error) :=
  name <- ms_networkName ;;
  tx <- newTx name ;;
  tx_Build tx (sourceAccount sourceSeed) [BuildMasterWeight weight] ;;;
  (if (0 <? length signers)%nat
   then tx_Sign tx signers
   else tx_Sign tx [sourceSeed]) ;;;
  tx_Submit tx ;;;
  tx_Err tx.

(** [AddSigner] adds [signerAddress] as a signer to [sourceSeed]'s account
    with weight [signerWeight]. *)
Definition AddSigner (sourceSeed signerAddress : string) (signerWeight : N)
    (signers : list string) : F (option error) :=
  name <- ms_networkName ;;
  tx <- newTx name ;;
  tx_Build tx (sourceAccount sourceSeed)
    [BuildAddSigner signerAddress signerWeight] ;;;
  (if (0 <? length signers)%nat
   then tx_Sign tx signers
   else tx_Sign tx [sourceSeed]) ;;;
  tx_Submit tx ;;;
  tx_Err tx.

(** [RemoveSigner] removes [signerAddress] as a signer from [sourceSeed]'s
    account. *)
Definition RemoveSigner (sourceSeed signerAddress : string)
    (signers : list string) : F (option error) :=
  name <- ms_networkName ;;
  tx <- newTx name ;;
  tx_Build tx (sourceAccount sourceSeed) [BuildRemoveSigner signerAddress] ;;;
  (if (0 <? length signers)%nat
   then tx_Sign tx signers
   else tx_Sign tx [sourceSeed]) ;;;
  tx_Submit tx ;;;
  tx_Err tx.

(** [SetThresholds] sets the signing thresholds for the account. *)
Definition SetThresholds (sourceSeed : string) (low medium high : N)
    (signers : list string) : F (option error) :=
  name <- ms_networkName ;;
  tx <- newTx name ;;
  tx_Build tx (sourceAccount sourceSeed) [BuildSetThresholds low medium high] ;;;
  (if (0 <? length signers)%nat
   then tx_Sign tx signers
   else tx_Sign tx [sourceSeed]) ;;;
  tx_Submit tx ;;;
  tx_Err tx.

(** ** The operations as data

    One constructor per facade method that ends in [tx.Submit()], so that a
    property of all of them is one statement. *)

Inductive FacadeCall :=
| CallFundAccount (sourceSeed address amount : string) (signers : list string)
| CallPay (payment : Payment)
| CallCreateTrustLine (sourceSeed : string) (asset : Asset) (limit : string)
    (signers : list string)
| CallRemoveTrustLine (sourceSeed : string) (asset : Asset)
    (signers : list string)
| CallSetMasterWeight (sourceSeed : string) (weight : N)
    (signers : list string)
| CallAddSigner (sourceSeed signerAddress : string) (signerWeight : N)
    (signers : list string)
| CallRemoveSigner (sourceSeed signerAddress : string) (signers : list string)
| CallSetThresholds (sourceSeed : string) (low medium high : N)
    (signers : list string).

Definition invoke (c : FacadeCall) : F (option error) :=
  match c with
  | CallFundAccount src address amount signers =>
      FundAccount src address amount signers
  | CallPay payment => Pay payment
  | CallCreateTrustLine src asset limit signers =>
      CreateTrustLine src asset limit signers
  | CallRemoveTrustLine src asset signers => RemoveTrustLine src asset signers
  | CallSetMasterWeight src weight signers => SetMasterWeight src weight signers
  | CallAddSigner src address weight signers =>
      AddSigner src address weight signers
  | CallRemoveSigner src address signers => RemoveSigner src address signers
  | CallSetThresholds src low medium high signers =>
      SetThresholds src low medium high signers
  end.

(** The primary parameter of a call: [sourceSeed], for [Pay] the payment's. *)
Definition primary (c : FacadeCall) : string :=
  match c with
  | CallFundAccount src _ _ _ => src
  | CallPay payment => sourceSeed payment
  | CallCreateTrustLine src _ _ _ => src
  | CallRemoveTrustLine src _ _ => src
  | CallSetMasterWeight src _ _ => src
  | CallAddSigner src _ _ _ => src
  | CallRemoveSigner src _ _ => src
  | CallSetThresholds src _ _ _ _ => src
  end.

(** The signer list of a call: [signers], for [Pay] the payment's. *)
Definition supplied (c : FacadeCall) : list string :=
  match c with
  | CallFundAccount _ _ _ signers => signers
  | CallPay payment => signerSeeds payment
  | CallCreateTrustLine _ _ _ signers => signers
  | CallRemoveTrustLine _ _ signers => signers
  | CallSetMasterWeight _ _ signers => signers
  | CallAddSigner _ _ _ signers => signers
  | CallRemoveSigner _ _ signers => signers
  | CallSetThresholds _ _ _ _ signers => signers
  end.

(** The seeds a call signs with: Go's [len(signers) > 0] test. *)
Definition resolved (c : FacadeCall) : list string :=
  if (0 <? length (supplied c))%nat then supplied c else [primary c].

(** One fresh [Tx] driven through Build, Sign, Submit and Err, written
    directly on the backend's functions. *)
Definition pipeline (name : string) (src : SourceAccount)
    (muts : list TransactionMutator) (keys : list string) (s : FState)
    : option error * FState :=
  let (tx, w1) := NewTx name (world s) in
  let (e, w2) := Err tx (Submit tx (Sign tx keys (Build tx src muts w1))) in
  (e, {| handle := handle s;
         world := w2;
         calls := (calls s ++
           [CallNewTx name tx; CallBuild tx src muts; CallSign tx keys;
            CallSubmit tx; CallErr tx e])%list |}).

(** Every exported method of the handle, with the state it leaves. *)
Inductive FacadeOp :=
| OpMutate (c : FacadeCall)
| OpPayNative (sourceSeed targetAddress amount : string)
| OpLoadAccount (address : string)
| OpCreateKeyPair.

Definition after (op : FacadeOp) (s : FState) : FState :=
  match op with
  | OpMutate c => (invoke c s).2
  | OpPayNative src target amount => (PayNative src target amount s).2
  | OpLoadAccount address => (LoadAccount address s).2
  | OpCreateKeyPair => (CreateKeyPair s).2
  end.

(** ** Reading the ghost log *)

(** The calls a computation adds to the log when run from [s]. *)
Definition issued {A} (m : F A) (s : FState) : list TxCall :=
  drop (length (calls s)) (calls (m s).2).

(** The [Sign] invocations of a log: on which [Tx], with which seeds. *)
Definition signInvocations (l : list TxCall) : list (TxRef * list string) :=
  omap (λ c, match c with CallSign tx keys => Some (tx, keys) | _ => None end) l.

(** The mutator lists handed to [Build] in a log. *)
Definition builtMutators (l : list TxCall) : list (list TransactionMutator) :=
  omap (λ c, match c with CallBuild _ _ muts => Some muts | _ => None end) l.

(** The [Tx] instances created in a log, with the network name given. *)
Definition created (l : list TxCall) : list (string * TxRef) :=
  omap (λ c, match c with CallNewTx name tx => Some (name, tx) | _ => None end) l.

(** The payment operations and the memo mutators handed to [Build]. *)
Definition paymentOperations (l : list TxCall) : list TransactionMutator :=
  List.filter isPayment (concat (builtMutators l)).

Definition memoMutators (l : list TxCall) : list TransactionMutator :=
  List.filter isMemo (concat (builtMutators l)).

(** A mutator occurs strictly before another one in a list. *)
Definition before (a b : TransactionMutator) (l : list TransactionMutator) : Prop :=
  ∃ i j, (i < j)%nat ∧ l !! i = Some a ∧ l !! j = Some b.

(** ** Further readers and views of a call *)

(** What a call hands to [Build] after the source account, read off the
    method's body. *)
Definition operations (c : FacadeCall) : list TransactionMutator :=
  match c with
  | CallFundAccount _ address amount _ =>
      [BuildCreateAccount [Destination address; NativeAmount amount]]
  | CallPay payment =>
      (match memoType payment with
       | MemoText => [BuildMemoText (memoText payment)]
       | MemoID => [BuildMemoID (memoID payment)]
       | MemoNone => []
       end ++
       [BuildPayment
          [Destination (targetAddress payment);
           if IsNative (asset payment)
           then NativeAmount (amount payment)
           else CreditAmount (Code (asset payment)) (Issuer (asset payment))
                  (amount payment)]])%list
  | CallCreateTrustLine _ asset limit _ =>
      [BuildTrust (Code asset) (Issuer asset)
         (if bool_decide (limit = "") then [] else [Limit limit])]
  | CallRemoveTrustLine _ asset _ =>
      [BuildRemoveTrust (Code asset) (Issuer asset)]
  | CallSetMasterWeight _ weight _ => [BuildMasterWeight weight]
  | CallAddSigner _ address weight _ => [BuildAddSigner address weight]
  | CallRemoveSigner _ address _ => [BuildRemoveSigner address]
  | CallSetThresholds _ low medium high _ =>
      [BuildSetThresholds low medium high]
  end.

(** The same call with another signer list. *)
Definition withSigners (l : list string) (c : FacadeCall) : FacadeCall :=
  match c with
  | CallFundAccount src address amount _ =>
      CallFundAccount src address amount l
  | CallPay payment =>
      CallPay {| sourceSeed := sourceSeed payment;
                 targetAddress := targetAddress payment;
                 amount := amount payment;
                 asset := asset payment;
                 memoType := memoType payment;
                 memoText := memoText payment;
                 memoID := memoID payment;
                 signerSeeds := l |}
  | CallCreateTrustLine src asset limit _ =>
      CallCreateTrustLine src asset limit l
  | CallRemoveTrustLine src asset _ => CallRemoveTrustLine src asset l
  | CallSetMasterWeight src weight _ => CallSetMasterWeight src weight l
  | CallAddSigner src address weight _ => CallAddSigner src address weight l
  | CallRemoveSigner src address _ => CallRemoveSigner src address l
  | CallSetThresholds src low medium high _ =>
      CallSetThresholds src low medium high l
  end.

(** A caller running mutating calls one after the other, collecting what
    each returns. *)
Fixpoint invokeAll (cs : list FacadeCall) : F (list (option error)) :=
  match cs with
  | [] => ret []
  | c :: rest =>
      e <- invoke c ;;
      es <- invokeAll rest ;;
      ret (e :: es)
  end.

(** The arguments of the [Build] calls of a log. *)
Definition buildArguments (l : list TxCall)
    : list (SourceAccount * list TransactionMutator) :=
  omap (λ c, match c with
             | CallBuild _ src muts => Some (src, muts)
             | _ => None
             end) l.

(** The [Tx] instances submitted in a log. *)
Definition submitted (l : list TxCall) : list TxRef :=
  omap (λ c, match c with CallSubmit tx => Some tx | _ => None end) l.

(** The mutators of a list that are ledger operations, not memos. *)
Definition ledgerOperations (muts : list TransactionMutator)
    : list TransactionMutator :=
  List.filter (λ m, negb (isMemo m)) muts.


End Facade.

(** * The pipeline as the specification describes it

    [tx.go], [payment.go], [asset.go] and [account.go] are not among the
    sources.  This module follows the specification's description of the
    transaction pipeline (states Fresh, Built, Signed, Submitted; one
    terminal error; fake mode for the sentinel network name) and of the
    collaborators at their interface boundary.  The network, the operation
    builder's validation, the signing primitive and the random generator
    are variables. *)

Module SpecTx.

(** Modelled from the spec: the error kinds of the pipeline ([tx.go] is
    not among the sources), in pipeline order, and the fail-fast error of
    a stage run before Build. *)
Inductive TxError :=
| BuildError (reason : string)
| SignError (key : string)
| RejectionError (payload : string)
| NotFoundError (address : string)
| NotBuilt.

(** Modelled from the spec: the states of a [Tx] ([tx.go] is not among the
    sources). *)
Inductive TxState := Fresh | Built | Signed | Submitted.

(** What goes over the wire. *)
Inductive NetEvent :=
| NetLoadAccount (network address : string)
| NetSubmit (network : string) (source : option SourceAccount)
    (ops : list TransactionMutator) (signatures : list string).

(** Modelled from the spec: the [Tx] record ([tx.go] is not among the
    sources): network name, fake flag, accumulated operations and
    signatures, last error. *)
Record Tx := mkTx {
  txNetwork : string;
  txFake : bool;
  txSource : option SourceAccount;
  txOps : list TransactionMutator;
  txSignatures : list string;
  txErr : option TxError;
  txState : TxState
}.

(** The pipeline instances allocated so far (a [TxRef] is an index), the
    network traffic so far, and the number of key pairs drawn. *)
Record Env := mkEnv {
  txs : list Tx;
  net : list NetEvent;
  drawn : nat
}.

Definition sentinel : string := "fake".

Definition nativeAsset : Asset := {| Code := ""; Issuer := "" |}.

(** Modelled from the spec: [IsNative] ([asset.go] is not among the
    sources) holds exactly when code and issuer are both empty. *)
Definition is_native (a : Asset) : bool :=
  bool_decide (Code a = "" ∧ Issuer a = "").

(** Modelled from the spec: [NewPayment] ([payment.go] is not among the
    sources) gives the default payment: native asset, no memo, no
    signers. *)
Definition new_payment (sourceSeed targetAddress amount : string) : Payment :=
  {| sourceSeed := sourceSeed;
     targetAddress := targetAddress;
     amount := amount;
     asset := nativeAsset;
     memoType := MemoNone;
     memoText := "";
     memoID := 0%N;
     signerSeeds := [] |}.

Definition identifier (src : SourceAccount) : string :=
  match src with BuildSourceAccount a => a end.

Section Collaborators.

(** Network transport: the account held under an address or seed. *)
Variable ledger : string → string → option Account.
(** Operation builder: whether an operation's parameters are well formed. *)
Variable wellFormed : TransactionMutator → bool.
(** Cryptography: the signature a seed yields, none for invalid material. *)
Variable signature : string → option string.
(** Network transport: the rejection payload of a submission, if any. *)
Variable verdict : string → option SourceAccount → list TransactionMutator →
                   list string → option string.
(** Cryptography: the stream of generated key pairs. *)
Variable entropy : nat → KeyPair.

Definition fresh (name : string) : Tx :=
  {| txNetwork := name;
     txFake := bool_decide (name = sentinel);
     txSource := None;
     txOps := [];
     txSignatures := [];
     txErr := None;
     txState := Fresh |}.

Definition failed (t : Tx) (e : TxError) : Tx :=
  {| txNetwork := txNetwork t; txFake := txFake t; txSource := txSource t;
     txOps := txOps t; txSignatures := txSignatures t;
     txErr := Some e; txState := txState t |}.

(** Runs one pipeline stage on the instance [tx] points to. *)
Definition stage (tx : nat) (f : Tx → Tx * list NetEvent) (w : Env) : Env :=
  match txs w !! tx with
  | Some t =>
      let (t', io) := f t in
      {| txs := <[tx := t']> (txs w); net := net w ++ io; drawn := drawn w |}
  | None => w
  end.

(** Modelled from the spec: [NewTx] ([tx.go] is not among the sources)
    creates a fresh pipeline; it is in fake mode exactly when constructed
    against the sentinel network name. *)
Definition new_tx (name : string) (w : Env) : nat * Env :=
  (length (txs w),
   {| txs := txs w ++ [fresh name]; net := net w; drawn := drawn w |}).

(** Modelled from the spec: [Tx.Build] ([tx.go] is not among the sources)
    assigns the source and appends the operations in the order given.
    Malformed parameters fail locally; the source is resolved against the
    network.  In fake mode it succeeds trivially. *)
Definition build_stage (src : SourceAccount) (muts : list TransactionMutator)
    (t : Tx) : Tx * list NetEvent :=
  let built :=
    {| txNetwork := txNetwork t; txFake := txFake t; txSource := Some src;
       txOps := txOps t ++ muts; txSignatures := txSignatures t;
       txErr := None; txState := Built |} in
  match txErr t with
  | Some _ => (t, [])
  | None =>
      if txFake t then (built, [])
      else if negb (forallb wellFormed muts)
      then (failed t (BuildError "malformed operation"), [])
      else match ledger (txNetwork t) (identifier src) with
           | Some _ => (built, [NetLoadAccount (txNetwork t) (identifier src)])
           | None => (failed t (BuildError "unresolved source account"),
                      [NetLoadAccount (txNetwork t) (identifier src)])
           end
  end.

(** The signatures of a list of seeds, or the first seed that is not valid
    key material. *)
Fixpoint signatures (keys : list string) : string + list string :=
  match keys with
  | [] => inr []
  | k :: rest =>
      match signature k with
      | None => inl k
      | Some sg =>
          match signatures rest with
          | inl bad => inl bad
          | inr sgs => inr (sg :: sgs)
          end
      end
  end.

(** Modelled from the spec: [Tx.Sign] ([tx.go] is not among the sources)
    fails fast before Build; it is skipped in fake mode; otherwise one
    signature per seed is appended, in the order given. *)
Definition sign_stage (keys : list string) (t : Tx) : Tx * list NetEvent :=
  let signed sgs :=
    {| txNetwork := txNetwork t; txFake := txFake t; txSource := txSource t;
       txOps := txOps t; txSignatures := txSignatures t ++ sgs;
       txErr := None; txState := Signed |} in
  match txErr t with
  | Some _ => (t, [])
  | None =>
      match txState t with
      | Fresh => (failed t NotBuilt, [])
      | _ =>
          if txFake t then (signed [], [])
          else match signatures keys with
               | inl bad => (failed t (SignError bad), [])
               | inr sgs => (signed sgs, [])
               end
      end
  end.

(** Modelled from the spec: [Tx.Submit] ([tx.go] is not among the sources)
    is a no-op on a failed pipeline and fails fast before Build; in fake
    mode nothing is sent; otherwise the envelope goes to the network and
    a rejection becomes the terminal error. *)
Definition submit_stage (t : Tx) : Tx * list NetEvent :=
  let submitted e :=
    {| txNetwork := txNetwork t; txFake := txFake t; txSource := txSource t;
       txOps := txOps t; txSignatures := txSignatures t;
       txErr := e; txState := Submitted |} in
  match txErr t with
  | Some _ => (t, [])
  | None =>
      match txState t with
      | Fresh => (failed t NotBuilt, [])
      | _ =>
          if txFake t then (submitted None, [])
          else
            (submitted
               (RejectionError <$>
                  verdict (txNetwork t) (txSource t) (txOps t) (txSignatures t)),
             [NetSubmit (txNetwork t) (txSource t) (txOps t) (txSignatures t)])
      end
  end.

Definition build (tx : nat) (src : SourceAccount)
    (muts : list TransactionMutator) : Env → Env :=
  stage tx (build_stage src muts).

Definition sign (tx : nat) (keys : list string) : Env → Env :=
  stage tx (sign_stage keys).

Definition submit (tx : nat) : Env → Env :=
  stage tx submit_stage.

(** Modelled from the spec: [Tx.Err] ([tx.go] is not among the sources)
    returns the terminal error of the pipeline, or nil. *)
Definition err (tx : nat) (w : Env) : option TxError * Env :=
  (t ← txs w !! tx; txErr t, w).

(** Modelled from the spec: [Tx.GetClient] ([tx.go] is not among the
    sources), the read-only accessor; a client is the network it talks
    to. *)
Definition get_client (tx : nat) (w : Env) : string * Env :=
  (from_option txNetwork "" (txs w !! tx), w).

(** Modelled from the spec: the transport's account load, a snapshot or
    a not-found error. *)
Definition load_account (client address : string) (w : Env)
    : (Account * option TxError) * Env :=
  let w' := {| txs := txs w;
               net := net w ++ [NetLoadAccount client address];
               drawn := drawn w |} in
  match ledger client address with
  | Some a => ((a, None), w')
  | None => ((newAccount, Some (NotFoundError address)), w')
  end.

(** Modelled from the spec: the cryptographic collaborator's key-pair
    generation. *)
Definition random (w : Env) : (KeyPair * option TxError) * Env :=
  ((entropy (drawn w), None),
   {| txs := txs w; net := net w; drawn := S (drawn w) |}).

(** The pipeline of the specification as a backend of the facade. *)
Definition backend : Backend :=
  {| World := Env;
     TxRef := nat;
     error := TxError;
     Client := string;
     HorizonAccount := Account;
     NewTx := new_tx;
     Build := build;
     Sign := sign;
     Submit := submit;
     Err := err;
     GetClient := get_client;
     ClientLoadAccount := load_account;
     KeypairRandom := random;
     NewPayment := new_payment;
     IsNative := is_native;
     newAccountFromHorizon := λ a, a |}.

End Collaborators.

(** A small network for examples: every address is funded, every
    operation is well formed, every seed signs, nothing is rejected. *)
Definition simulated : Backend :=
  backend (λ _ _, Some newAccount) (λ _, true)
          (λ k, Some ("sig:" ++ k)) (λ _ _ _ _, None)
          (λ n, {| Seed := "S" ; Address := "G" |}).

Definition start (name : string) : @FState simulated :=
  @mkFState simulated (New name) (mkEnv [] [] 0) [].

End SpecTx.

(** * Properties of the facade, for every backend *)

Section FacadeProperties.
Context `{B : Backend}.

Lemma issued_app {A} (m : F A) (s : FState) (l : list TxCall) :
  calls (m s).2 = (calls s ++ l)%list → issued m s = l.
Proof.
  intros H. unfold issued. rewrite H. apply drop_app_length.
Qed.

Lemma logged_calls (s : FState) (w : World) (c : TxCall) :
  calls (logged s w c) = (calls s ++ [c])%list.
Proof. reflexivity. Qed.

Lemma logged_handle (s : FState) (w : World) (c : TxCall) :
  handle (logged s w c) = handle s.
Proof. reflexivity. Qed.

(** Unfolds a facade method down to the backend's functions. *)
Ltac run_facade :=
  unfold invoke, PayNative, FundAccount, Pay, CreateTrustLine, RemoveTrustLine,
    SetMasterWeight, AddSigner, RemoveSigner, SetThresholds, LoadAccount,
    CreateKeyPair, bind, ret, ms_networkName, ms_fake, newTx, tx_Build,
    tx_Sign, tx_Submit, tx_Err, tx_GetClient, client_LoadAccount,
    keypair_Random;
  cbn beta iota zeta.

(** Every mutating method drives one fresh [Tx] through Build, Sign,
    Submit and Err, and hands back what Err returned. *)
Lemma invoke_run (c : FacadeCall) (s : FState) :
  ∃ muts,
    invoke c s =
      pipeline (networkName (handle s)) (sourceAccount (primary c)) muts
               (resolved c) s.
Proof.
  unfold resolved, pipeline.
  destruct c; run_facade; cbn [primary supplied];
    destruct (NewTx _ _) as [tx w1]; cbn beta iota zeta;
    repeat match goal with
           | |- context [if ?b then _ else _] => destruct b
           end;
    cbn beta iota zeta; unfold logged; cbn [handle world calls];
    lazymatch goal with
    | |- context [Build _ _ ?muts _] => exists muts
    end;
    destruct (Err _ _) as [e w2];
    rewrite <- !app_assoc; reflexivity.
Qed.

Lemma pipeline_calls name src muts keys (s : FState) :
  ∃ tx w,
    (pipeline name src muts keys s).1 = (Err tx w).1 ∧
    world (pipeline name src muts keys s).2 = (Err tx w).2 ∧
    handle (pipeline name src muts keys s).2 = handle s ∧
    calls (pipeline name src muts keys s).2 =
      (calls s ++
         [CallNewTx name tx; CallBuild tx src muts; CallSign tx keys;
          CallSubmit tx; CallErr tx (pipeline name src muts keys s).1])%list.
Proof.
  unfold pipeline. destruct (NewTx _ _) as [tx w1].
  exists tx, (Submit tx (Sign tx keys (Build tx src muts w1))).
  destruct (Err _ _) as [e w2]. cbn. auto.
Qed.

Lemma resolved_supplied (c : FacadeCall) :
  supplied c ≠ [] → resolved c = supplied c.
Proof.
  unfold resolved. destruct (supplied c); [congruence | reflexivity].
Qed.

Lemma resolved_primary (c : FacadeCall) :
  supplied c = [] → resolved c = [primary c].
Proof.
  unfold resolved. intros ->. reflexivity.
Qed.

(** C1.  Signer resolution.  For each of [FundAccount], [Pay],
    [CreateTrustLine], [RemoveTrustLine], [SetMasterWeight], [AddSigner],
    [RemoveSigner] and [SetThresholds], run from any state on any backend:
    one [Tx] is created, and [Sign] is invoked exactly once, on that [Tx].
    With a non-empty signer list its argument is that list, in the order
    given, and the primary parameter is not passed to [Sign]; with an empty
    list its argument is the primary parameter alone. *)
Theorem signer_resolution (c : FacadeCall) (s : FState) :
  ∃ tx,
    created (issued (invoke c) s) = [(networkName (handle s), tx)] ∧
    (supplied c ≠ [] →
       signInvocations (issued (invoke c) s) = [(tx, supplied c)]) ∧
    (supplied c = [] →
       signInvocations (issued (invoke c) s) = [(tx, [primary c])]).
Proof.
  destruct (invoke_run c s) as [muts Hrun].
  destruct (pipeline_calls (networkName (handle s))
              (sourceAccount (primary c)) muts (resolved c) s)
    as (tx & w & _ & _ & _ & Hcalls).
  rewrite <- Hrun in Hcalls. apply issued_app in Hcalls.
  exists tx. rewrite Hcalls. cbn. split; [reflexivity | split].
  - intros Hne. rewrite (resolved_supplied c Hne). reflexivity.
  - intros Hnil. rewrite (resolved_primary c Hnil). reflexivity.
Qed.

(** C4.  Each of the eight mutating methods returns exactly what [Err]
    returned on the [Tx] it created: the last call it makes is [Err] on
    that [Tx], and the value, the nil value included, is handed back
    unchanged. *)
Theorem facade_returns_pipeline_error (c : FacadeCall) (s : FState) :
  ∃ tx w,
    created (issued (invoke c) s) = [(networkName (handle s), tx)] ∧
    (invoke c s).1 = (Err tx w).1 ∧
    world (invoke c s).2 = (Err tx w).2 ∧
    last (issued (invoke c) s) = Some (CallErr tx (invoke c s).1).
Proof.
  destruct (invoke_run c s) as [muts Hrun].
  destruct (pipeline_calls (networkName (handle s))
              (sourceAccount (primary c)) muts (resolved c) s)
    as (tx & w & Hres & Hworld & _ & Hcalls).
  rewrite <- Hrun in Hres, Hworld, Hcalls. apply issued_app in Hcalls.
  exists tx, w. rewrite Hcalls. cbn. auto.
Qed.

(** What [Pay] hands to [Build]: the memo mutator, if any, then the
    payment operation. *)
Lemma Pay_built (payment : Payment) (s : FState) :
  builtMutators (issued (Pay payment) s) =
    [(match memoType payment with
      | MemoText => [BuildMemoText (memoText payment)]
      | MemoID => [BuildMemoID (memoID payment)]
      | MemoNone => []
      end ++
      [BuildPayment
         [Destination (targetAddress payment);
          if IsNative (asset payment)
          then NativeAmount (amount payment)
          else CreditAmount (Code (asset payment)) (Issuer (asset payment))
                 (amount payment)]])%list].
Proof.
  assert (H : ∃ l, calls (Pay payment s).2 = (calls s ++ l)%list ∧
                   builtMutators l = [(match memoType payment with
      | MemoText => [BuildMemoText (memoText payment)]
      | MemoID => [BuildMemoID (memoID payment)]
      | MemoNone => []
      end ++
      [BuildPayment
         [Destination (targetAddress payment);
          if IsNative (asset payment)
          then NativeAmount (amount payment)
          else CreditAmount (Code (asset payment)) (Issuer (asset payment))
                 (amount payment)]])%list]).
  { run_facade. destruct (NewTx _ _) as [tx w1]. cbn beta iota zeta.
    destruct (0 <? _)%nat; cbn beta iota zeta;
      destruct (Err _ _) as [e w2]; unfold logged; cbn [handle world calls snd];
      rewrite <- !app_assoc; eexists; (split; [reflexivity |]);
      destruct (memoType payment), (IsNative (asset payment)); reflexivity. }
  destruct H as (l & Hl & Hb). apply issued_app in Hl. rewrite Hl. exact Hb.
Qed.

(** C2.  The payment operation [Pay] emits.  Whatever the payment, [Pay]
    hands exactly one payment operation to [Build].  When
    [payment.asset.IsNative()] is true it carries a native amount of
    [payment.amount]; when it is false it carries a credit amount whose
    code and issuer are [payment.asset.Code] and [payment.asset.Issuer]
    as they are, together with [payment.amount]. *)
Theorem payment_amount_kind (payment : Payment) (s : FState) :
  (IsNative (asset payment) = true →
     paymentOperations (issued (Pay payment) s) =
       [BuildPayment [Destination (targetAddress payment);
                      NativeAmount (amount payment)]]) ∧
  (IsNative (asset payment) = false →
     paymentOperations (issued (Pay payment) s) =
       [BuildPayment [Destination (targetAddress payment);
                      CreditAmount (Code (asset payment))
                        (Issuer (asset payment)) (amount payment)]]).
Proof.
  unfold paymentOperations. rewrite Pay_built.
  split; intros ->; destruct (memoType payment); reflexivity.
Qed.

(** C3.  Memo before payment.  [Pay] calls [Build] once, with a list
    holding one payment operation.  When [memoType] is [MemoText] the list
    holds the text memo mutator, and it stands strictly before the
    payment operation; likewise the id memo mutator when [memoType] is
    [MemoID]; when it is neither, the list holds no memo mutator. *)
Theorem memo_before_payment (payment : Payment) (s : FState) :
  ∃ muts op,
    builtMutators (issued (Pay payment) s) = [muts] ∧
    isPayment op = true ∧
    List.filter isPayment muts = [op] ∧
    (memoType payment = MemoText →
       List.filter isMemo muts = [BuildMemoText (memoText payment)] ∧
       before (BuildMemoText (memoText payment)) op muts) ∧
    (memoType payment = MemoID →
       List.filter isMemo muts = [BuildMemoID (memoID payment)] ∧
       before (BuildMemoID (memoID payment)) op muts) ∧
    (memoType payment ≠ MemoText → memoType payment ≠ MemoID →
       List.filter isMemo muts = []).
Proof.
  rewrite Pay_built. eexists _, _. split; [reflexivity |].
  split; [| split; [| split; [| split]]].
  2: { destruct (memoType payment); reflexivity. }
  - reflexivity.
  - intros ->. split; [reflexivity |].
    exists 0%nat, 1%nat. split; [lia | split; reflexivity].
  - intros ->. split; [reflexivity |].
    exists 0%nat, 1%nat. split; [lia | split; reflexivity].
  - intros Ht Hi. destruct (memoType payment); [reflexivity | |]; congruence.
Qed.



(** C5.  On a handle whose [fake] flag is set, [LoadAccount] returns the
    zero-valued account and a nil error for every address string, and
    leaves the whole state as it was: the backend's world is untouched and
    no call on the pipeline or the client is logged. *)
Theorem load_account_fake (address : string) (s : FState) :
  fake (handle s) = true →
  LoadAccount address s =
    ((Some {| AccountAddress := ""; Sequence := 0%N; Balances := [];
              Signers := []; Thresholds := (0%N, 0%N, 0%N) |}, None), s) ∧
  issued (LoadAccount address) s = [].
Proof.
  intros Hfake.
  assert (Hrun : LoadAccount address s = ((Some newAccount, None), s)).
  { run_facade. rewrite Hfake. reflexivity. }
  split; [exact Hrun |].
  apply issued_app. rewrite Hrun. cbn. rewrite app_nil_r. reflexivity.
Qed.

Lemma handle_invoke (c : FacadeCall) (s : FState) :
  handle (invoke c s).2 = handle s.
Proof.
  destruct (invoke_run c s) as [muts ->].
  destruct (pipeline_calls (networkName (handle s))
              (sourceAccount (primary c)) muts (resolved c) s)
    as (tx & w & _ & _ & Hhandle & _).
  exact Hhandle.
Qed.

(** C8.  [New] sets the [fake] flag exactly for the network name "fake"
    and stores the name it is given; no method of the handle, run from any
    state on any backend, changes the handle. *)
Theorem handle_immutable :
  (∀ name, fake (New name) = true ↔ name = "fake") ∧
  (∀ name, networkName (New name) = name) ∧
  (∀ (op : FacadeOp) (s : FState), handle (after op s) = handle s).
Proof.
  split; [| split].
  - intros name. unfold New. cbn. apply bool_decide_eq_true.
  - reflexivity.
  - intros [c | src target amount | address |] s; cbn [after].
    + apply handle_invoke.
    + apply (handle_invoke (CallPay (NewPayment src target amount))).
    + run_facade. destruct (fake (handle s)); [reflexivity |].
      destruct (NewTx _ _) as [tx w1]. cbn beta iota zeta.
      destruct (GetClient _ _) as [c w2]. cbn beta iota zeta.
      destruct (ClientLoadAccount _ _ _) as [[account [e |]] w3]; reflexivity.
    + run_facade.
      destruct (KeypairRandom _) as [[kp [e |]] w1]; reflexivity.
Qed.

(** C9.  For every address, [LoadAccount] returns either an account and a
    nil error, or a nil account and an error; never both, never neither. *)
Theorem load_account_exclusive (address : string) (s : FState) :
  (is_Some (LoadAccount address s).1.1 ∧ (LoadAccount address s).1.2 = None) ∨
  ((LoadAccount address s).1.1 = None ∧ is_Some (LoadAccount address s).1.2).
Proof.
  run_facade. destruct (fake (handle s)).
  - left. split; [eexists |]; reflexivity.
  - destruct (NewTx _ _) as [tx w1]. cbn beta iota zeta.
    destruct (GetClient _ _) as [c w2]. cbn beta iota zeta.
    destruct (ClientLoadAccount _ _ _) as [[account [e |]] w3];
      cbn beta iota zeta.
    + right. split; [| eexists]; reflexivity.
    + left. split; [eexists |]; reflexivity.
Qed.

End FacadeProperties.

(** * Properties on the pipeline of the specification *)

Section SpecPipeline.
Import SpecTx.

Variable ledger : string → string → option Account.
Variable wellFormed : TransactionMutator → bool.
Variable signature : string → option string.
Variable verdict : string → option SourceAccount → list TransactionMutator →
                   list string → option string.
Variable entropy : nat → KeyPair.

Abbreviation spec := (backend ledger wellFormed signature verdict entropy).

Lemma stage_hit (tx : nat) (f : Tx → Tx * list NetEvent) (w : Env) (t : Tx) :
  txs w !! tx = Some t →
  txs (stage tx f w) !! tx = Some (f t).1 ∧
  net (stage tx f w) = (net w ++ (f t).2)%list.
Proof.
  intros Ht. unfold stage. rewrite Ht. destruct (f t) as [t' io]. cbn.
  split; [| reflexivity].
  apply list_lookup_insert_eq. eapply lookup_lt_Some. exact Ht.
Qed.

Lemma build_stage_fake (src : SourceAccount) (muts : list TransactionMutator)
    (t : Tx) :
  txFake t = true → txErr t = None →
  txFake (build_stage ledger wellFormed src muts t).1 = true ∧
  txErr (build_stage ledger wellFormed src muts t).1 = None ∧
  txState (build_stage ledger wellFormed src muts t).1 = Built ∧
  (build_stage ledger wellFormed src muts t).2 = [].
Proof.
  intros Hfake Herr. unfold build_stage. rewrite Herr, Hfake. cbn. auto.
Qed.

Lemma sign_stage_fake (keys : list string) (t : Tx) :
  txFake t = true → txErr t = None → txState t ≠ Fresh →
  txFake (sign_stage signature keys t).1 = true ∧
  txErr (sign_stage signature keys t).1 = None ∧
  txState (sign_stage signature keys t).1 ≠ Fresh ∧
  (sign_stage signature keys t).2 = [].
Proof.
  intros Hfake Herr Hstate. unfold sign_stage. rewrite Herr, Hfake.
  destruct (txState t); [congruence | | |]; cbn; auto.
Qed.

Lemma submit_stage_fake (t : Tx) :
  txFake t = true → txErr t = None → txState t ≠ Fresh →
  txErr (submit_stage verdict t).1 = None ∧
  (submit_stage verdict t).2 = [].
Proof.
  intros Hfake Herr Hstate. unfold submit_stage. rewrite Herr, Hfake.
  destruct (txState t); [congruence | | |]; cbn; auto.
Qed.

(** A pipeline created for the sentinel network name reports no error
    and sends nothing, whatever it is asked to build and sign. *)
Lemma pipeline_fake (src : SourceAccount) (muts : list TransactionMutator)
    (keys : list string) (s : @FState spec) :
  (pipeline (B := spec) sentinel src muts keys s).1 = None ∧
  net (world (pipeline (B := spec) sentinel src muts keys s).2) = net (world s).
Proof.
  unfold pipeline. cbn [NewTx Build Sign Submit Err spec backend new_tx].
  set (w0 := world s).
  set (tx := length (txs w0)).
  set (w1 := {| txs := txs w0 ++ [fresh sentinel]; net := net w0;
                drawn := drawn w0 |}).
  assert (H1 : txs w1 !! tx = Some (fresh sentinel)).
  { apply list_lookup_middle. reflexivity. }
  destruct (stage_hit tx (build_stage ledger wellFormed src muts) w1 _ H1)
    as [H2 N2].
  destruct (build_stage_fake src muts (fresh sentinel) eq_refl eq_refl)
    as (F2 & E2 & S2 & IO2).
  fold (build ledger wellFormed tx src muts w1) in H2, N2.
  set (w2 := build ledger wellFormed tx src muts w1) in *.
  destruct (stage_hit tx (sign_stage signature keys) w2 _ H2) as [H3 N3].
  destruct (sign_stage_fake keys _ F2 E2 ltac:(rewrite S2; discriminate))
    as (F3 & E3 & S3 & IO3).
  fold (sign signature tx keys w2) in H3, N3.
  set (w3 := sign signature tx keys w2) in *.
  destruct (stage_hit tx (submit_stage verdict) w3 _ H3) as [H4 N4].
  destruct (submit_stage_fake _ F3 E3 S3) as (E4 & IO4).
  fold (submit verdict tx w3) in H4, N4.
  set (w4 := submit verdict tx w3) in *.
  unfold err. rewrite H4. cbn. split; [exact E4 |].
  rewrite N4, IO4, N3, IO3, N2, IO2, !app_nil_r. reflexivity.
Qed.

(** In fake mode every mutating method reports no error and sends
    nothing. *)
Lemma invoke_fake (c : FacadeCall) (w : Env) (log : list (@TxCall spec)) :
  (invoke (B := spec) c (@mkFState spec (New "fake") w log)).1 = None ∧
  net (world (invoke (B := spec) c (@mkFState spec (New "fake") w log)).2) =
    net w.
Proof.
  destruct (invoke_run (B := spec) c (@mkFState spec (New "fake") w log))
    as [muts ->].
  apply pipeline_fake.
Qed.

(** C7.  On a handle built by [New "fake"], over the pipeline of the
    specification, [PayNative] returns a nil error for every source seed,
    target address and amount, valid or not, and the network traffic
    after the call is the traffic before it. *)
Theorem pay_native_fake (sourceSeed targetAddress amount : string)
    (w : Env) (log : list (@TxCall spec)) :
  (PayNative (B := spec) sourceSeed targetAddress amount
     (@mkFState spec (New "fake") w log)).1 = None ∧
  net (world (PayNative (B := spec) sourceSeed targetAddress amount
                (@mkFState spec (New "fake") w log)).2) = net w.
Proof.
  exact (invoke_fake (CallPay (new_payment sourceSeed targetAddress amount))
           w log).
Qed.

End SpecPipeline.

(** * The theorems at concrete calls on the simulated network *)

Section Examples.
Import SpecTx.

(** Funding an account on the fake network reports no error. *)
Example fund_account_on_fake :
  (FundAccount (B := simulated) "SA" "GB" "1.5" [] (start "fake")).1 = None.
Proof. reflexivity. Qed.

(** An explicit signer overrides the primary value, here an address: the
    transaction is signed with the listed seed only. *)
Example add_signer_with_override :
  issued (AddSigner (B := simulated) "GA" "GC" 1%N ["SB"]) (start "test") =
    [CallNewTx (B := simulated) "test" 0%nat;
     CallBuild (B := simulated) 0%nat (BuildSourceAccount "GA")
       [BuildAddSigner "GC" 1%N];
     CallSign (B := simulated) 0%nat ["SB"];
     CallSubmit (B := simulated) 0%nat;
     CallErr (B := simulated) 0%nat None].
Proof. reflexivity. Qed.

(** A text memo precedes the credit payment it annotates. *)
Example pay_credit_with_memo :
  builtMutators
    (issued (Pay (B := simulated)
               (mkPayment "SA" "GB" "20" (mkAsset "USD" "GI") MemoText "rent"
                  7%N ["SC"; "SD"]))
       (start "test")) =
    [[BuildMemoText "rent";
      BuildPayment [Destination "GB"; CreditAmount "USD" "GI" "20"]]].
Proof. reflexivity. Qed.

(** Off the fake network a native payment does reach the network: the
    source account is resolved and the envelope is submitted. *)
Example pay_native_on_test :
  net (world (PayNative (B := simulated) "SA" "GB" "1" (start "test")).2) =
    [NetLoadAccount "test" "SA";
     NetSubmit "test" (Some (BuildSourceAccount "SA"))
       [BuildPayment [Destination "GB"; NativeAmount "1"]] ["sig:SA"]].
Proof. reflexivity. Qed.

(** Off the fake network [LoadAccount] goes through the client. *)
Example load_account_on_test :
  issued (LoadAccount (B := simulated) "GA") (start "test") =
    [CallNewTx (B := simulated) "test" 0%nat;
     CallGetClient (B := simulated) 0%nat "test";
     CallLoadAccount (B := simulated) "test" "GA" (newAccount, None)].
Proof. reflexivity. Qed.

Lemma signer_resolution_witness :
  (∃ tx, signInvocations
           (issued (invoke (B := simulated)
                      (CallAddSigner "GA" "GC" 1%N ["SB"])) (start "test")) =
         [(tx, ["SB"])]) ∧
  (∃ tx, signInvocations
           (issued (invoke (B := simulated)
                      (CallAddSigner "SA" "GC" 1%N [])) (start "test")) =
         [(tx, ["SA"])]).
Proof.
  split.
  - destruct (signer_resolution (B := simulated)
                (CallAddSigner "GA" "GC" 1%N ["SB"]) (start "test"))
      as (tx & _ & Hlist & _).
    exists tx. apply Hlist. discriminate.
  - destruct (signer_resolution (B := simulated)
                (CallAddSigner "SA" "GC" 1%N []) (start "test"))
      as (tx & _ & _ & Hprimary).
    exists tx. apply Hprimary. reflexivity.
Defined.

Lemma payment_amount_kind_witness :
  paymentOperations
    (issued (Pay (B := simulated) (new_payment "SA" "GB" "1.5"))
       (start "test")) =
    [BuildPayment [Destination "GB"; NativeAmount "1.5"]] ∧
  paymentOperations
    (issued (Pay (B := simulated)
               (mkPayment "SA" "GB" "20" (mkAsset "USD" "GI") MemoNone "" 0%N []))
       (start "test")) =
    [BuildPayment [Destination "GB"; CreditAmount "USD" "GI" "20"]].
Proof.
  split.
  - apply (proj1 (payment_amount_kind (B := simulated)
                    (new_payment "SA" "GB" "1.5") (start "test"))).
    reflexivity.
  - apply (proj2 (payment_amount_kind (B := simulated)
                    (mkPayment "SA" "GB" "20" (mkAsset "USD" "GI") MemoNone
                       "" 0%N [])
                    (start "test"))).
    reflexivity.
Defined.

Lemma memo_before_payment_witness :
  ∃ muts op,
    builtMutators
      (issued (Pay (B := simulated)
                 (mkPayment "SA" "GB" "20" nativeAsset MemoText "rent" 0%N []))
         (start "test")) = [muts] ∧
    List.filter isMemo muts = [BuildMemoText "rent"] ∧
    before (BuildMemoText "rent") op muts.
Proof.
  destruct (memo_before_payment (B := simulated)
              (mkPayment "SA" "GB" "20" nativeAsset MemoText "rent" 0%N [])
              (start "test"))
    as (muts & op & Hbuilt & _ & _ & Htext & _ & _).
  exists muts, op. split; [exact Hbuilt |]. apply Htext. reflexivity.
Defined.

Lemma load_account_fake_witness :
  LoadAccount (B := simulated) "not an address" (start "fake") =
    ((Some {| AccountAddress := ""; Sequence := 0%N; Balances := [];
              Signers := []; Thresholds := (0%N, 0%N, 0%N) |}, None),
     start "fake") ∧
  issued (LoadAccount (B := simulated) "not an address") (start "fake") = [].
Proof.
  apply (load_account_fake (B := simulated) "not an address" (start "fake")).
  reflexivity.
Defined.



End Examples.

(** * Further properties of the facade, for every backend *)

Section FacadeCoverage.
Context `{B : Backend}.

Ltac unfold_facade :=
  unfold invoke, PayNative, FundAccount, Pay, CreateTrustLine, RemoveTrustLine,
    SetMasterWeight, AddSigner, RemoveSigner, SetThresholds, LoadAccount,
    CreateKeyPair, bind, ret, ms_networkName, ms_fake, newTx, tx_Build,
    tx_Sign, tx_Submit, tx_Err, tx_GetClient, client_LoadAccount,
    keypair_Random;
  cbn beta iota zeta.

Lemma issued_extends {A} (m : F A) (s : FState) (l : list TxCall) :
  calls (m s).2 = (calls s ++ l)%list → issued m s = l.
Proof.
  intros H. unfold issued. rewrite H. apply drop_app_length.
Qed.

(** Each mutating method is the pipeline run on its own source account,
    operations and resolved seeds. *)
Lemma invoke_pipeline (c : FacadeCall) (s : FState) :
  invoke c s =
    pipeline (networkName (handle s)) (sourceAccount (primary c))
             (operations c) (resolved c) s.
Proof.
  unfold resolved, pipeline.
  destruct c; unfold_facade; cbn [primary supplied operations];
    destruct (NewTx _ _) as [tx w1]; cbn beta iota zeta;
    repeat match goal with
           | |- context [if (0 <? ?n)%nat then _ else _] =>
               destruct (0 <? n)%nat
           | |- context [if bool_decide ?P then _ else _] =>
               destruct (bool_decide P)
           | |- context [if IsNative ?a then _ else _] =>
               destruct (IsNative a)
           | |- context [match memoType ?p with _ => _ end] =>
               destruct (memoType p)
           end;
    cbn beta iota zeta; unfold logged; cbn [handle world calls app];
    destruct (Err _ _) as [e w2];
    rewrite <- !app_assoc; reflexivity.
Qed.

Lemma pipeline_issued name src muts keys (s : FState) :
  ∃ tx e,
    issued (pipeline name src muts keys) s =
      [CallNewTx name tx; CallBuild tx src muts; CallSign tx keys;
       CallSubmit tx; CallErr tx e].
Proof.
  unfold issued, pipeline. destruct (NewTx _ _) as [tx w1].
  destruct (Err _ _) as [e w2]. exists tx, e. cbn [snd calls].
  apply drop_app_length.
Qed.

Lemma invoke_issued (c : FacadeCall) (s : FState) :
  ∃ tx e,
    issued (invoke c) s =
      [CallNewTx (networkName (handle s)) tx;
       CallBuild tx (sourceAccount (primary c)) (operations c);
       CallSign tx (resolved c);
       CallSubmit tx;
       CallErr tx e].
Proof.
  destruct (pipeline_issued (networkName (handle s))
              (sourceAccount (primary c)) (operations c) (resolved c) s)
    as (tx & e & H).
  exists tx, e. rewrite <- H. unfold issued.
  rewrite invoke_pipeline. reflexivity.
Qed.

Lemma resolved_nonempty (c : FacadeCall) : resolved c ≠ [].
Proof.
  unfold resolved. destruct (supplied c); cbn; discriminate.
Qed.

(** X1.  Call sequence of a mutating method.  Each of the eight methods
    makes exactly five calls, in this order and all on the one [Tx] that
    [NewTx] returned for the handle's network name: [NewTx], [Build] with
    the source account made from the primary parameter, [Sign], [Submit],
    [Err].  It makes no other call: no retry, no client access. *)
Theorem mutating_call_sequence (c : FacadeCall) (s : FState) :
  ∃ tx muts keys e,
    issued (invoke c) s =
      [CallNewTx (networkName (handle s)) tx;
       CallBuild tx (sourceAccount (primary c)) muts;
       CallSign tx keys;
       CallSubmit tx;
       CallErr tx e].
Proof.
  destruct (invoke_issued c s) as (tx & e & H).
  exists tx, (operations c), (resolved c), e. exact H.
Qed.

(** X2.  Arguments handed to the builder.  [FundAccount],
    [RemoveTrustLine], [SetMasterWeight], [AddSigner], [RemoveSigner] and
    [SetThresholds] each call [Build] once, with the source account made
    from [sourceSeed] and one operation built from their own parameters,
    unchanged and in the order of the method's signature. *)
Theorem builder_arguments (sourceSeed address amount signerAddress : string)
    (asset : Asset) (weight low medium high : N) (signers : list string)
    (s : FState) :
  buildArguments (issued (FundAccount sourceSeed address amount signers) s) =
    [(sourceAccount sourceSeed,
      [BuildCreateAccount [Destination address; NativeAmount amount]])] ∧
  buildArguments (issued (RemoveTrustLine sourceSeed asset signers) s) =
    [(sourceAccount sourceSeed,
      [BuildRemoveTrust (Code asset) (Issuer asset)])] ∧
  buildArguments (issued (SetMasterWeight sourceSeed weight signers) s) =
    [(sourceAccount sourceSeed, [BuildMasterWeight weight])] ∧
  buildArguments (issued (AddSigner sourceSeed signerAddress weight signers) s) =
    [(sourceAccount sourceSeed, [BuildAddSigner signerAddress weight])] ∧
  buildArguments (issued (RemoveSigner sourceSeed signerAddress signers) s) =
    [(sourceAccount sourceSeed, [BuildRemoveSigner signerAddress])] ∧
  buildArguments (issued (SetThresholds sourceSeed low medium high signers) s) =
    [(sourceAccount sourceSeed, [BuildSetThresholds low medium high])].
Proof.
  repeat split.
  - destruct (invoke_issued
                (CallFundAccount sourceSeed address amount signers) s)
      as (tx & e & H).
    cbn [invoke] in H. rewrite H. reflexivity.
  - destruct (invoke_issued (CallRemoveTrustLine sourceSeed asset signers) s)
      as (tx & e & H).
    cbn [invoke] in H. rewrite H. reflexivity.
  - destruct (invoke_issued (CallSetMasterWeight sourceSeed weight signers) s)
      as (tx & e & H).
    cbn [invoke] in H. rewrite H. reflexivity.
  - destruct (invoke_issued
                (CallAddSigner sourceSeed signerAddress weight signers) s)
      as (tx & e & H).
    cbn [invoke] in H. rewrite H. reflexivity.
  - destruct (invoke_issued
                (CallRemoveSigner sourceSeed signerAddress signers) s)
      as (tx & e & H).
    cbn [invoke] in H. rewrite H. reflexivity.
  - destruct (invoke_issued
                (CallSetThresholds sourceSeed low medium high signers) s)
      as (tx & e & H).
    cbn [invoke] in H. rewrite H. reflexivity.
Qed.

Lemma operations_shape (c : FacadeCall) :
  length (ledgerOperations (operations c)) = 1%nat ∧
  (length (List.filter isMemo (operations c)) ≤ 1)%nat.
Proof.
  destruct c; cbn; try (split; [reflexivity | lia]).
  destruct (memoType payment); cbn; split; (reflexivity || lia).
Qed.

(** X3.  One operation per transaction.  The list a mutating method hands
    to [Build] holds exactly one ledger operation and at most one memo,
    whatever the parameters. *)
Theorem one_ledger_operation (c : FacadeCall) (s : FState) :
  ∃ muts,
    builtMutators (issued (invoke c) s) = [muts] ∧
    length (ledgerOperations muts) = 1%nat ∧
    (length (List.filter isMemo muts) ≤ 1)%nat.
Proof.
  destruct (invoke_issued c s) as (tx & e & H).
  exists (operations c). rewrite H. split; [reflexivity |].
  apply operations_shape.
Qed.

Lemma primary_withSigners (l : list string) (c : FacadeCall) :
  primary (withSigners l c) = primary c.
Proof. destruct c; reflexivity. Qed.

Lemma operations_withSigners (l : list string) (c : FacadeCall) :
  operations (withSigners l c) = operations c.
Proof. destruct c; reflexivity. Qed.

Lemma supplied_withSigners (l : list string) (c : FacadeCall) :
  supplied (withSigners l c) = l.
Proof. destruct c; reflexivity. Qed.

(** X4.  Signers do not change the transaction.  Replacing the signer
    list of a call by any other list, and running it from any other
    state, leaves the arguments of [Build] the same: the same source
    account and the same operations. *)
Theorem build_ignores_signers (c : FacadeCall) (l : list string)
    (s s' : FState) :
  buildArguments (issued (invoke (withSigners l c)) s') =
    buildArguments (issued (invoke c) s).
Proof.
  destruct (invoke_issued c s) as (tx & e & H).
  destruct (invoke_issued (withSigners l c) s') as (tx' & e' & H').
  rewrite H, H'. cbn.
  rewrite primary_withSigners, operations_withSigners. reflexivity.
Qed.

(** X5.  The [fake] field is not read by the mutating methods: on two
    handles with the same network name and different [fake] flags, a
    mutating method returns the same value, leaves the same world and
    makes the same calls.  Only the network name reaches the pipeline. *)
Theorem fake_flag_unread (c : FacadeCall) (name : string) (b b' : bool)
    (w : World) (log : list TxCall) :
  (invoke c (mkFState (mkMicroStellar name b) w log)).1 =
    (invoke c (mkFState (mkMicroStellar name b') w log)).1 ∧
  world (invoke c (mkFState (mkMicroStellar name b) w log)).2 =
    world (invoke c (mkFState (mkMicroStellar name b') w log)).2 ∧
  calls (invoke c (mkFState (mkMicroStellar name b) w log)).2 =
    calls (invoke c (mkFState (mkMicroStellar name b') w log)).2.
Proof.
  rewrite !invoke_pipeline. unfold pipeline. cbn [handle networkName world calls].
  destruct (NewTx _ _) as [tx w1]. destruct (Err _ _) as [e w2].
  cbn. auto.
Qed.

(** X6.  [Sign] is never called with an empty key list: when no signers
    are given the list is the primary parameter alone. *)
Theorem sign_never_empty (c : FacadeCall) (s : FState) :
  Forall (λ p, p.2 ≠ []) (signInvocations (issued (invoke c) s)).
Proof.
  destruct (invoke_issued c s) as (tx & e & H). rewrite H. cbn.
  constructor; [apply resolved_nonempty | constructor].
Qed.

(** X7.  Naming the primary seed as the only signer is the same as naming
    no signer: same result, same world, same calls. *)
Theorem sole_signer_is_default (c : FacadeCall) (s : FState) :
  supplied c = [] →
  invoke (withSigners [primary c] c) s = invoke c s.
Proof.
  intros Hnone. rewrite !invoke_pipeline.
  rewrite primary_withSigners, operations_withSigners.
  unfold resolved. rewrite supplied_withSigners, Hnone. reflexivity.
Qed.

(** X8.  The memo field [memoType] does not select is not used by [Pay]:
    unless the type is [MemoText] the text is ignored, unless it is
    [MemoID] the id is ignored. *)
Theorem memo_fields_unused (src target amt : string) (a : Asset)
    (mt : MemoType) (text text' : string) (id id' : N)
    (signers : list string) (s : FState) :
  (mt ≠ MemoText →
     Pay (mkPayment src target amt a mt text id signers) s =
     Pay (mkPayment src target amt a mt text' id signers) s) ∧
  (mt ≠ MemoID →
     Pay (mkPayment src target amt a mt text id signers) s =
     Pay (mkPayment src target amt a mt text id' signers) s).
Proof.
  split; intros Hmt.
  - change (invoke (CallPay (mkPayment src target amt a mt text id signers)) s =
            invoke (CallPay (mkPayment src target amt a mt text' id signers)) s).
    rewrite !invoke_pipeline.
    destruct mt; [reflexivity | congruence | reflexivity].
  - change (invoke (CallPay (mkPayment src target amt a mt text id signers)) s =
            invoke (CallPay (mkPayment src target amt a mt text id' signers)) s).
    rewrite !invoke_pipeline.
    destruct mt; [reflexivity | reflexivity | congruence].
Qed.

Lemma invoke_effect (c : FacadeCall) (s : FState) :
  ∃ l,
    calls (invoke c s).2 = (calls s ++ l)%list ∧
    length (created l) = 1%nat ∧
    length (submitted l) = 1%nat ∧
    handle (invoke c s).2 = handle s.
Proof.
  rewrite invoke_pipeline. unfold pipeline.
  destruct (NewTx _ _) as [tx w1]. destruct (Err _ _) as [e w2].
  eexists. cbn [snd calls handle]. split; [reflexivity |]. cbn. auto.
Qed.

Lemma invokeAll_effect (cs : list FacadeCall) :
  ∀ s : FState,
    ∃ l,
      calls (invokeAll cs s).2 = (calls s ++ l)%list ∧
      length (created l) = length cs ∧
      length (submitted l) = length cs ∧
      length (invokeAll cs s).1 = length cs ∧
      handle (invokeAll cs s).2 = handle s.
Proof.
  induction cs as [| c rest IH]; intros s.
  - exists []. cbn. rewrite app_nil_r. auto.
  - assert (Hrun : invokeAll (c :: rest) s =
                    let (e, s1) := invoke c s in
                    let (es, s2) := invokeAll rest s1 in (e :: es, s2))
      by reflexivity.
    rewrite Hrun. clear Hrun.
    destruct (invoke_effect c s) as (l1 & Hcalls1 & Hnew1 & Hsub1 & Hhandle1).
    destruct (invoke c s) as [e s1]. cbn [snd] in *.
    destruct (IH s1) as (l2 & Hcalls2 & Hnew2 & Hsub2 & Hlen2 & Hhandle2).
    destruct (invokeAll rest s1) as [es s2]. cbn [fst snd] in *.
    exists (l1 ++ l2)%list.
    unfold created, submitted in *.
    rewrite !omap_app, !length_app, Hnew1, Hnew2, Hsub1, Hsub2.
    rewrite Hcalls2, Hcalls1, Hhandle2, Hhandle1, <- app_assoc.
    cbn [length]. rewrite Hlen2. auto.
Qed.

(** X9.  Calls in sequence.  A caller that makes [n] mutating calls one
    after the other gets [n] results, and the facade creates [n]
    pipelines and submits [n] times: nothing is batched, skipped or
    retried, whatever the earlier calls returned.  The handle is the same
    afterwards. *)
Theorem calls_in_sequence (cs : list FacadeCall) (s : FState) :
  length (invokeAll cs s).1 = length cs ∧
  length (created (issued (invokeAll cs) s)) = length cs ∧
  length (submitted (issued (invokeAll cs) s)) = length cs ∧
  handle (invokeAll cs s).2 = handle s.
Proof.
  destruct (invokeAll_effect cs s) as (l & Hcalls & Hnew & Hsub & Hlen & Hh).
  apply issued_extends in Hcalls. rewrite Hcalls. auto.
Qed.

Lemma load_account_live (address : string) (s : FState) :
  fake (handle s) = false →
  ∃ tx c r,
    calls (LoadAccount address s).2 =
      (calls s ++
         [CallNewTx (networkName (handle s)) tx; CallGetClient tx c;
          CallLoadAccount c address r])%list ∧
    (LoadAccount address s).1 =
      match r.2 with
      | Some e => (None, Some e)
      | None => (Some (newAccountFromHorizon r.1), None)
      end.
Proof.
  intros Hlive. unfold_facade. rewrite Hlive.
  destruct (NewTx _ _) as [tx w1]. cbn beta iota zeta.
  destruct (GetClient _ _) as [c w2]. cbn beta iota zeta.
  destruct (ClientLoadAccount _ _ _) as [[account err] w3] eqn:Hload.
  exists tx, c, (account, err).
  cbn beta iota zeta. unfold logged. cbn [handle world calls].
  destruct err as [e |]; cbn [fst snd calls];
    rewrite <- !app_assoc; split; reflexivity.
Qed.

(** X10.  [LoadAccount] off fake mode is a read.  On a handle whose
    [fake] flag is not set it makes exactly three calls: [NewTx] with the
    handle's network name, [GetClient] on that [Tx], and the client's
    [LoadAccount] with the address as given.  It never builds, signs or
    submits. *)
Theorem load_account_live_calls (address : string) (s : FState) :
  fake (handle s) = false →
  ∃ tx c r,
    issued (LoadAccount address) s =
      [CallNewTx (networkName (handle s)) tx; CallGetClient tx c;
       CallLoadAccount c address r].
Proof.
  intros Hlive.
  destruct (load_account_live address s Hlive) as (tx & c & r & Hcalls & _).
  exists tx, c, r. apply issued_extends. exact Hcalls.
Qed.

(** X11.  [LoadAccount] off fake mode hands back the client's answer.
    When the client reports an error, that same error is returned with a
    nil account, and the account value the client returned with it is
    dropped; otherwise the account is the conversion of the client's and
    the error is nil. *)
Theorem load_account_live_result (address : string) (s : FState) :
  fake (handle s) = false →
  ∃ c r,
    last (issued (LoadAccount address) s) = Some (CallLoadAccount c address r) ∧
    (LoadAccount address s).1 =
      match r.2 with
      | Some e => (None, Some e)
      | None => (Some (newAccountFromHorizon r.1), None)
      end.
Proof.
  intros Hlive.
  destruct (load_account_live address s Hlive) as (tx & c & r & Hcalls & Hres).
  exists c, r. apply issued_extends in Hcalls. rewrite Hcalls.
  split; [reflexivity | exact Hres].
Qed.

(** X12.  On a handle made by [New], [LoadAccount] makes no call at all
    exactly when the network name is "fake"; for every other name,
    the empty one included, it goes to the client. *)
Theorem load_account_network_use (name address : string) (w : World)
    (log : list TxCall) :
  issued (LoadAccount address) (mkFState (New name) w log) = [] ↔
  name = "fake".
Proof.
  split.
  - intros Hnone. destruct (decide (name = "fake")) as [| Hname]; [assumption |].
    exfalso.
    destruct (load_account_live address (mkFState (New name) w log))
      as (tx & c & r & Hcalls & _).
    { cbn. apply bool_decide_eq_false_2. exact Hname. }
    apply issued_extends in Hcalls. rewrite Hcalls in Hnone. discriminate.
  - intros ->. apply issued_extends. cbn. rewrite app_nil_r. reflexivity.
Qed.

(** X13.  [CreateKeyPair] makes one call, to the random generator, and
    creates no [Tx].  When the generator reports an error, that error is
    returned with a nil pair; otherwise the pair holds the generated seed
    and address, in this order, and the error is nil. *)
Theorem create_key_pair_result (s : FState) :
  ∃ r,
    issued CreateKeyPair s = [CallRandom r] ∧
    (CreateKeyPair s).1 =
      match r.2 with
      | Some e => (None, Some e)
      | None => (Some {| Seed := Seed r.1; Address := Address r.1 |}, None)
      end.
Proof.
  assert (H : ∃ r,
            calls (CreateKeyPair s).2 = (calls s ++ [CallRandom r])%list ∧
            (CreateKeyPair s).1 =
              match r.2 with
              | Some e => (None, Some e)
              | None =>
                  (Some {| Seed := Seed r.1; Address := Address r.1 |}, None)
              end).
  { unfold_facade. destruct (KeypairRandom _) as [[kp err] w1].
    exists (kp, err). cbn beta iota zeta.
    destruct err as [e |]; split; reflexivity. }
  destruct H as (r & Hcalls & Hres). exists r.
  split; [apply issued_extends; exact Hcalls | exact Hres].
Qed.

End FacadeCoverage.

(** * The native payment wrapper *)


(** * The further properties at concrete calls on the simulated network *)

Section CoverageExamples.
Import SpecTx.

(** Two calls in a row on the test network: two pipelines, two results. *)
Example two_calls_in_a_row :
  (invokeAll (B := simulated)
     [CallSetMasterWeight "SA" 2%N []; CallRemoveSigner "GA" "GC" ["SB"]]
     (start "test")).1 = [None; None] ∧
  created
    (issued (invokeAll (B := simulated)
               [CallSetMasterWeight "SA" 2%N [];
                CallRemoveSigner "GA" "GC" ["SB"]])
       (start "test")) =
    [("test", 0%nat : @TxRef simulated); ("test", 1%nat : @TxRef simulated)].
Proof. split; reflexivity. Qed.

Lemma sole_signer_is_default_witness :
  invoke (B := simulated) (CallFundAccount "SA" "GB" "1.5" ["SA"])
    (start "test") =
  invoke (B := simulated) (CallFundAccount "SA" "GB" "1.5" []) (start "test").
Proof.
  apply (sole_signer_is_default (B := simulated)
           (CallFundAccount "SA" "GB" "1.5" []) (start "test")).
  reflexivity.
Defined.

Lemma memo_fields_unused_witness :
  Pay (B := simulated)
    (mkPayment "SA" "GB" "20" nativeAsset MemoID "rent" 7%N []) (start "test") =
  Pay (B := simulated)
    (mkPayment "SA" "GB" "20" nativeAsset MemoID "" 7%N []) (start "test").
Proof.
  apply (proj1 (memo_fields_unused (B := simulated) "SA" "GB" "20" nativeAsset
                  MemoID "rent" "" 7%N 7%N [] (start "test"))).
  discriminate.
Defined.

Lemma load_account_live_calls_witness :
  ∃ tx c r,
    issued (LoadAccount (B := simulated) "GA") (start "test") =
      [CallNewTx (B := simulated) "test" tx;
       CallGetClient (B := simulated) tx c;
       CallLoadAccount (B := simulated) c "GA" r].
Proof.
  apply (load_account_live_calls (B := simulated) "GA" (start "test")).
  reflexivity.
Defined.

Lemma load_account_live_result_witness :
  ∃ c r,
    last (issued (LoadAccount (B := simulated) "GA") (start "test")) =
      Some (CallLoadAccount (B := simulated) c "GA" r) ∧
    (LoadAccount (B := simulated) "GA" (start "test")).1 =
      match r.2 with
      | Some e => (None, Some e)
      | None => (Some (@newAccountFromHorizon simulated r.1), None)
      end.
Proof.
  apply (load_account_live_result (B := simulated) "GA" (start "test")).
  reflexivity.
Defined.

End CoverageExamples.
